(** * plainbox.impl.unit.file: the file unit, its roles and its validators

    A shallow embedding of [plainbox/impl/unit/file.py].  Python values that
    reach this module are either [None] or a [str]; characters are Rocq
    [ascii] values read as the code points 0..255.  Integers used as string
    indices are [Z], as [str.rfind] answers -1 when nothing is found. *)

From Stdlib Require Import ZArith Ascii String List Bool Lia.
From Stdlib Require Import Sorting.Sorted Sorting.Permutation.
From stdpp Require Import gmap strings.

Local Open Scope string_scope.
Local Open Scope Z_scope.

(** ** Python values and builtins *)

Module Py.

Inductive value : Type :=
| None
| Str (s : string).

(** Truth value of an object: [None] and the empty string are false. *)
Definition truthy (v : value) : bool :=
  match v with
  | None => false
  | Str s => negb (String.eqb s "")
  end.

(** [a or b] *)
Definition or_ (a b : value) : value := if truthy a then a else b.

(** [str(v)] *)
Definition str (v : value) : string :=
  match v with
  | None => "None"
  | Str s => s
  end.

Definition backslash : ascii := "092"%char.
Definition single_quote : ascii := "039"%char.
Definition double_quote : ascii := "034"%char.

Definition hex_digit (n : N) : ascii :=
  match n with
  | 0%N => "0" | 1%N => "1" | 2%N => "2" | 3%N => "3"
  | 4%N => "4" | 5%N => "5" | 6%N => "6" | 7%N => "7"
  | 8%N => "8" | 9%N => "9" | 10%N => "a" | 11%N => "b"
  | 12%N => "c" | 13%N => "d" | 14%N => "e" | _ => "f"
  end%char.

(** The escape [\xhh] of a code point below 256. *)
Definition hex_escape (c : ascii) : string :=
  let n := N_of_ascii c in
  String backslash
    (String "x" (String (hex_digit (n / 16)) (String (hex_digit (n mod 16)) ""))).

(** [str.isprintable] on the code points 128..255: the C1 controls, the
    no-break space (U+00A0) and the soft hyphen (U+00AD) are not printable. *)
Definition latin1_printable (n : N) : bool :=
  negb ((n <=? 160)%N || (n =? 173)%N).

(** One character of [repr(s)], given the quote character chosen for [s]. *)
Definition repr_char (quote c : ascii) : string :=
  let n := N_of_ascii c in
  if Ascii.eqb c quote || Ascii.eqb c backslash then String backslash (String c "")
  else if (n =? 9)%N then String backslash "t"
  else if (n =? 10)%N then String backslash "n"
  else if (n =? 13)%N then String backslash "r"
  else if (n <? 32)%N || (n =? 127)%N then hex_escape c
  else if (n <? 127)%N then String c ""
  else if latin1_printable n then String c ""
  else hex_escape c.

Fixpoint contains_char (c : ascii) (s : string) : bool :=
  match s with
  | EmptyString => false
  | String x r => Ascii.eqb x c || contains_char c r
  end.

Fixpoint repr_body (quote : ascii) (s : string) : string :=
  match s with
  | EmptyString => ""
  | String c r => repr_char quote c ++ repr_body quote r
  end.

(** [repr(s)] for a string: double quotes are chosen only when [s] holds a
    single quote and no double quote. *)
Definition repr_str (s : string) : string :=
  let quote :=
    if contains_char single_quote s && negb (contains_char double_quote s)
    then double_quote else single_quote in
  String quote (repr_body quote s ++ String quote "").

(** [repr(v)] *)
Definition repr (v : value) : string :=
  match v with
  | None => "None"
  | Str s => repr_str s
  end.

(** [template.format(a, b, ...)] for the replacement fields this module uses:
    the automatic field [{}], rendered with [str], and [{!r}], rendered
    with [repr]; everything else is literal text.  Python raises
    [IndexError] for a field that has no argument left; here such a field
    renders as nothing, and every template of this module is formatted
    with as many arguments as it has fields. *)
Fixpoint format (template : string) (args : list value) : string :=
  match template with
  | EmptyString => ""
  | String "{" (String "}" rest) =>
      match args with
      | a :: args' => str a ++ format rest args'
      | [] => format rest []
      end
  | String "{" (String "!" (String "r" (String "}" rest))) =>
      match args with
      | a :: args' => repr a ++ format rest args'
      | [] => format rest []
      end
  | String c rest => String c (format rest args)
  end.

(** [sep.join(items)] *)
Fixpoint join (sep : string) (items : list string) : string :=
  match items with
  | [] => ""
  | [x] => x
  | x :: rest => x ++ sep ++ join sep rest
  end.

(** [sorted(items)], by [<] only and stable, as Python's sort is: an item
    goes in front of the first one it is less than. *)
Section Sorted.
Context {A : Type} (lt : A -> A -> bool).

Fixpoint insort (x : A) (l : list A) : list A :=
  match l with
  | [] => [x]
  | y :: r => if lt x y then x :: y :: r else y :: insort x r
  end.

Fixpoint sorted_from (acc : list A) (items : list A) : list A :=
  match items with
  | [] => acc
  | x :: r => sorted_from (insort x acc) r
  end.

Definition sorted (items : list A) : list A := sorted_from [] items.
End Sorted.

(** [s.rfind(c)] for a one-character needle: the highest index of [c] in
    [s], or -1. *)
Fixpoint rfind_from (s : string) (c : ascii) (i last : Z) : Z :=
  match s with
  | EmptyString => last
  | String x r => rfind_from r c (i + 1) (if Ascii.eqb x c then i else last)
  end.

Definition rfind (s : string) (c : ascii) : Z := rfind_from s c 0 (-1).

Fixpoint take (n : nat) (s : string) : string :=
  match n, s with
  | S n', String c r => String c (take n' r)
  | _, _ => ""
  end.

Fixpoint drop (n : nat) (s : string) : string :=
  match n, s with
  | S n', String _ r => drop n' r
  | _, _ => s
  end.

(** [s[:k]] and [s[k:]] for an index [0 <= k], the only ones taken here. *)
Definition slice_to (s : string) (k : Z) : string := take (Z.to_nat k) s.
Definition slice_from (s : string) (k : Z) : string := drop (Z.to_nat k) s.

(** [s[i:i+1]] for [0 <= i]: one character, or the empty string past the end. *)
Definition slice1 (s : string) (i : Z) : string :=
  match String.get (Z.to_nat i) s with
  | Some c => String c ""
  | Datatypes.None => ""
  end.

End Py.

(** ** os.path.splitext (posixpath) *)

Module PosixPath.

Definition sep : ascii := "/"%char.
Definition extsep : ascii := "."%char.

(** The loop of [genericpath._splitext] that skips the leading dots of the
    last component.  [todo] is the number of iterations left,
    [dotIndex - filenameIndex]; when it reaches zero the loop ends and the
    function falls through to [return p, p[:0]]. *)
Fixpoint skip_leading_dots (p : string) (dotIndex filenameIndex : Z) (todo : nat)
  : string * string :=
  match todo with
  | O => (p, Py.slice_to p 0)
  | S todo' =>
      if negb (String.eqb (Py.slice1 p filenameIndex) (String extsep ""))
      then (Py.slice_to p dotIndex, Py.slice_from p dotIndex)
      else skip_leading_dots p dotIndex (filenameIndex + 1) todo'
  end.

(** [os.path.splitext(p)] on POSIX, where [altsep] is [None]. *)
Definition splitext (p : string) : string * string :=
  let sepIndex := Py.rfind p sep in
  let dotIndex := Py.rfind p extsep in
  if dotIndex >? sepIndex then
    let filenameIndex := sepIndex + 1 in
    skip_leading_dots p dotIndex filenameIndex (Z.to_nat (dotIndex - filenameIndex))
  else (p, Py.slice_to p 0).

End PosixPath.

(** ** plainbox.impl.symbol *)

(** Modelled from the spec: [plainbox.impl.symbol] ([Symbol], [SymbolDef]) is
    not among the sources.  A symbol is an immutable named constant whose
    string form is its identifier; symbols are compared, ordered and hashed
    by that identifier, and a raw string equal to it is a match.  [None] is
    equal to no symbol. *)
Record Symbol : Type := mkSymbol { symbol_name : string }.

Module Sym.

(** [str(sym)] *)
Definition str (sym : Symbol) : string := symbol_name sym.

(** [sym == v] (also [v == sym], through the reflected comparison) *)
Definition eq (sym : Symbol) (v : Py.value) : bool :=
  match v with
  | Py.None => false
  | Py.Str s => String.eqb (symbol_name sym) s
  end.

(** [a < b] *)
Definition lt (a b : Symbol) : bool := String.ltb (symbol_name a) (symbol_name b).

(** [v in symbols] on a list: some item is equal to [v]. *)
Definition contains (symbols : list Symbol) (v : Py.value) : bool :=
  existsb (fun sym => eq sym v) symbols.

End Sym.

(** Modelled from the spec: a [SymbolDef] class is its body, the attributes
    bound to symbols in declaration order; [get_all_symbols] lists them. *)
Definition SymbolDef : Type := list (string * Symbol).

Definition get_all_symbols (cls : SymbolDef) : list Symbol := List.map snd cls.

(** ** plainbox.i18n *)

(** Modelled from the spec: [plainbox.i18n] is not among the sources and the
    translation of messages is outside this core; messages are taken
    untranslated, so [gettext] and [gettext_noop] give back their argument. *)
Definition gettext (msgid : string) : string := msgid.
Definition gettext_noop (msgid : string) : string := msgid.

(** ** plainbox.impl.validation *)

(** Modelled from the spec: [plainbox.impl.validation] is not among the
    sources.  [file.py] names the kind [deprecated] and the severity
    [advice], the spec the severity [error]; the other members follow the
    framework's vocabulary and no statement below depends on them. *)
Inductive Problem : Type :=
| missing | wrong | useless | deprecated | constant | variable
| unknown_param | not_unique | expected_i18n | unexpected_i18n
| syntax_error | bad_reference.

Inductive Severity : Type := error | warning | advice.

(** ** plainbox.impl.unit.unit *)

(** Modelled from the spec: the [Unit] base class is not among the sources.
    A unit is a record of raw field values, field name to string;
    [get_record_value] answers [None] for a field that is not there. *)
Definition get_record_value (unit : gmap string string) (name : string) : Py.value :=
  match unit !! name with
  | Some raw => Py.Str raw
  | Datatypes.None => Py.None
  end.

(** Modelled from the spec: of the [UnitValidator] base class, which is not
    among the sources, [explain] reads the table of stock messages only;
    [_explain_map k] is what [self._explain_map.get(k)] finds. *)
Record UnitValidator : Type := { _explain_map : Problem -> Py.value }.

(** ** Exceptions *)

Inductive exception : Type := TypeError.

Inductive result (A : Type) : Type :=
| Ok (a : A)
| Raise (e : exception).
Arguments Ok {A} a.
Arguments Raise {A} e.

(** ** plainbox.impl.unit.validators *)

(** What a field validator reports for a violation. *)
Record Explanation : Type := mkExplanation {
  expl_field : Symbol;
  expl_kind : Problem;
  expl_severity : Severity;
  expl_message : Py.value
}.

Module CorrectFieldValueValidator.

(** Modelled from the spec: [plainbox.impl.unit.validators] is not among
    the sources.  A field validator holds a predicate on the field value, a
    problem and a severity classification, a message (possibly empty) and
    an optional [onlyif] guard on the unit. *)
Record t : Type := mk {
  correct_fn : Py.value -> result bool;
  kind : Problem;
  severity : Severity;
  message : Py.value;
  onlyif : option (gmap string string -> bool)
}.

Section Defaults.
(** The classifications a validator gets when the caller names none;
    the spec does not say which they are. *)
Variable default_kind : Problem.
Variable default_severity : Severity.

(** CorrectFieldValueValidator(correct_fn, kind=None, severity=None,
    message=None, onlyif=None) *)
Definition new (correct_fn : Py.value -> result bool)
    (kind : option Problem) (severity : option Severity)
    (message : Py.value) (onlyif : option (gmap string string -> bool)) : t :=
  {| correct_fn := correct_fn;
     kind := default default_kind kind;
     severity := default default_severity severity;
     message := message;
     onlyif := onlyif |}.
End Defaults.

(** Modelled from the spec: [evaluate(unit, field_name)].  The raw value of
    the field is resolved from the unit; a validator whose guard is false
    for the unit is inert; otherwise the predicate is evaluated on the raw
    value, and a false result is a violation, explained by the owning unit
    validator's [explain].  An exception of the predicate is not caught. *)
Definition evaluate
    (explain : gmap string string -> Symbol -> Problem -> Py.value -> Py.value)
    (self : t) (unit : gmap string string) (field : Symbol)
  : result (option Explanation) :=
  let value := get_record_value unit (Sym.str field) in
  let applicable :=
    match onlyif self with
    | Some guard => guard unit
    | Datatypes.None => true
    end in
  if negb applicable then Ok Datatypes.None
  else
    match correct_fn self value with
    | Raise e => Raise e
    | Ok true => Ok Datatypes.None
    | Ok false =>
        Ok (Some {| expl_field := field;
                    expl_kind := kind self;
                    expl_severity := severity self;
                    expl_message := explain unit field (kind self) (message self) |})
    end.

End CorrectFieldValueValidator.

(** ** plainbox.impl.unit.file *)

(** The symbol bound to [FileRole.unit_source]. *)
Definition FileRole_unit_source : Symbol := mkSymbol "unit-source".

(** class FileRole(SymbolDef) *)
Definition FileRole : SymbolDef :=
  [ ("unit_source", FileRole_unit_source);
    ("legacy_whitelist", mkSymbol "legacy-whitelist");
    ("script", mkSymbol "script");
    ("binary", mkSymbol "binary");
    ("data", mkSymbol "data");
    ("i18n", mkSymbol "i18n");
    ("manage_py", mkSymbol "manage.py");
    ("legal", mkSymbol "legal");
    ("docs", mkSymbol "docs");
    ("unknown", mkSymbol "unknown");
    ("build", mkSymbol "build");
    ("invalid", mkSymbol "invalid");
    ("vcs", mkSymbol "vcs");
    ("src", mkSymbol "src") ].

Module FileUnitValidator.

(** def explain(self, unit, field, kind, message): the function ends
    without a [return] when neither message is true, so it answers [None]. *)
Definition explain (self : UnitValidator) (unit : gmap string string)
    (field : Symbol) (kind : Problem) (message : Py.value) : Py.value :=
  let stock_msg := _explain_map self kind in
  if Py.truthy (Py.or_ message stock_msg)
  then Py.or_ message stock_msg
  else Py.None.

End FileUnitValidator.

Module FileUnit.

(** @property path *)
Definition path (self : gmap string string) : Py.value :=
  get_record_value self "path".

(** @propertywithsymbols(symbols=FileRole) role: the property gives the raw
    value; the symbols are only attached to the property object. *)
Definition role (self : gmap string string) : Py.value :=
  get_record_value self "role".

Definition __str__ (self : gmap string string) : Py.value := path self.

Definition __repr__ (self : gmap string string) : string :=
  Py.format "<FileUnit path:{!r}, role:{!r}>" [path self; role self].

End FileUnit.

Module Meta.

Definition name : string := gettext_noop "file".

Definition fields_path : Symbol := mkSymbol "path".
Definition fields_role : Symbol := mkSymbol "role".
Definition fields_base : Symbol := mkSymbol "base".

(** class fields(SymbolDef) *)
Definition fields : SymbolDef :=
  [ ("path", fields_path); ("role", fields_role); ("base", fields_base) ].

(** lambda value: os.path.splitext(value)[1] == '.pxu'; [splitext] raises
    [TypeError] on [None]. *)
Definition path_correct_fn (value : Py.value) : result bool :=
  match value with
  | Py.None => Raise TypeError
  | Py.Str p => Ok (String.eqb (snd (PosixPath.splitext p)) ".pxu")
  end.

(** lambda unit: unit.role == FileRole.unit_source *)
Definition path_onlyif (unit : gmap string string) : bool :=
  Sym.eq FileRole_unit_source (FileUnit.role unit).

Definition path_message : string :=
  Py.format
    (gettext "please use .pxu as an extension for all files with plainbox units, see: {}")
    [Py.Str "http://plainbox.readthedocs.org/en/latest/author/faq.html#faq-1"].

(** lambda value: value in FileRole.get_all_symbols() *)
Definition role_correct_fn (value : Py.value) : result bool :=
  Ok (Sym.contains (get_all_symbols FileRole) value).

Definition role_message : string :=
  Py.format (gettext "valid values are: {}")
    [Py.Str (Py.join ", "
               (List.map Sym.str (Py.sorted Sym.lt (get_all_symbols FileRole))))].

Section Defaults.
Variable default_kind : Problem.
Variable default_severity : Severity.

Definition path_validator : CorrectFieldValueValidator.t :=
  CorrectFieldValueValidator.new default_kind default_severity
    path_correct_fn (Some deprecated) (Some advice)
    (Py.Str path_message) (Some path_onlyif).

Definition role_validator : CorrectFieldValueValidator.t :=
  CorrectFieldValueValidator.new default_kind default_severity
    role_correct_fn Datatypes.None Datatypes.None
    (Py.Str role_message) Datatypes.None.

(** The dictionary [field_validators]; a symbol is hashed and compared
    by its identifier, which is the key here. *)
Definition field_validators : gmap string (list CorrectFieldValueValidator.t) :=
  {[ Sym.str fields_path := [path_validator];
     Sym.str fields_role := [role_validator] ]}.

(** A validator of the file unit run for one field; [validator_cls] is
    [FileUnitValidator], whose [explain] renders the message. *)
Definition check (parent : UnitValidator) (validator : CorrectFieldValueValidator.t)
    (unit : gmap string string) (field : Symbol) : result (option Explanation) :=
  CorrectFieldValueValidator.evaluate (FileUnitValidator.explain parent)
    validator unit field.
End Defaults.

End Meta.

(** The Role vocabulary as the specification words it. *)
Definition documented_role_vocabulary : list string :=
  [ "unit-source"; "legacy-whitelist"; "script"; "binary"; "data"; "i18n";
    "manage-script"; "legal"; "docs"; "unknown"; "build"; "invalid"; "vcs";
    "src" ].

(** The identifiers of the symbols a [SymbolDef] class declares. *)
Definition identifiers (cls : SymbolDef) : list string :=
  List.map symbol_name (get_all_symbols cls).

(** [needle] occurs in [hay] verbatim. *)
Definition occurs_in (needle hay : string) : Prop :=
  exists before after, hay = before ++ needle ++ after.

(** [needle in hay] on strings, decided. *)
Fixpoint str_contains (needle hay : string) : bool :=
  String.prefix needle hay
  || match hay with
     | EmptyString => false
     | String _ rest => str_contains needle rest
     end.

(** A character that [repr] copies as it is when it is not the quote:
    printable and not the backslash. *)
Definition copied_by_repr (c : ascii) : bool :=
  let n := N_of_ascii c in
  negb (Ascii.eqb c Py.backslash)
  && (((32 <=? n)%N && (n <? 127)%N) || ((127 <? n)%N && Py.latin1_printable n)).

Fixpoint all_chars (f : ascii -> bool) (s : string) : bool :=
  match s with
  | EmptyString => true
  | String c r => f c && all_chars f r
  end.

(** A string that [repr] only puts between quotes: every character is
    copied as it is, and the string does not hold both kinds of quote. *)
Definition repr_verbatim (s : string) : bool :=
  all_chars copied_by_repr s
  && negb (Py.contains_char Py.single_quote s && Py.contains_char Py.double_quote s).

(** The last component of a path, what follows its last separator. *)
Definition last_component (path : string) : string :=
  Py.slice_from path (Py.rfind path PosixPath.sep + 1).

Definition is_dot (c : ascii) : bool := Ascii.eqb c PosixPath.extsep.

(** A unit validator without stock messages, and two units, for the
    concrete cases below. *)
Definition no_stock_messages : UnitValidator := {| _explain_map := fun _ => Py.None |}.

Definition unit_suite_txt : gmap string string :=
  {[ "path" := "suite.txt"; "role" := "unit-source" ]}.

Definition unit_without_role : gmap string string := {[ "path" := "suite.pxu" ]}.

(** The path [a\b], a file name with a backslash in it. *)
Definition backslash_path : string := String "a" (String Py.backslash "b").

Definition unit_backslash : gmap string string :=
  {[ "path" := backslash_path; "role" := "docs" ]}.

(** A validator run ends in a violation. *)
Definition violation (r : result (option Explanation)) : Prop :=
  exists e, r = Ok (Some e).

(** * Properties *)

(** ** Symbols and the Role enumeration *)

Lemma Sym_eq_str (sym : Symbol) (s : string) :
  Sym.eq sym (Py.Str s) = true <-> symbol_name sym = s.
Proof. unfold Sym.eq. apply String.eqb_eq. Qed.

Lemma Sym_contains_None (symbols : list Symbol) :
  Sym.contains symbols Py.None = false.
Proof. induction symbols as [|sym rest IH]; simpl; auto. Qed.

Lemma Sym_contains_str (symbols : list Symbol) (s : string) :
  Sym.contains symbols (Py.Str s) = true <-> In s (List.map symbol_name symbols).
Proof.
  unfold Sym.contains. rewrite existsb_exists, in_map_iff. split.
  - intros [sym [Hin Heq]]. exists sym. split; [now apply Sym_eq_str | exact Hin].
  - intros [sym [Heq Hin]]. exists sym. split; [exact Hin | now apply Sym_eq_str].
Qed.

(** C4 (amended): the identifiers the Role enumeration declares are the
    fourteen strings unit-source, legacy-whitelist, script, binary, data,
    i18n, manage.py, legal, docs, unknown, build, invalid, vcs and src, each
    declared once; the management script's role is [manage.py]. *)
Theorem FileRole_identifiers :
  identifiers FileRole =
    [ "unit-source"; "legacy-whitelist"; "script"; "binary"; "data"; "i18n";
      "manage.py"; "legal"; "docs"; "unknown"; "build"; "invalid"; "vcs";
      "src" ]
  /\ List.length (identifiers FileRole) = 14%nat
  /\ List.NoDup (identifiers FileRole).
Proof.
  split; [reflexivity | split; [reflexivity |]].
  unfold identifiers. simpl.
  repeat (constructor; [simpl; intros H; repeat (destruct H as [H | H]; [discriminate H |]); exact H |]).
  constructor.
Qed.

(** C4 as the specification words it fails: [manage-script] is in the
    documented vocabulary and is not an identifier of the Role enumeration,
    while [manage.py] is one and is not documented. *)
Lemma FileRole_manage_script_not_declared :
  In "manage-script" documented_role_vocabulary
  /\ ~ In "manage-script" (identifiers FileRole)
  /\ In "manage.py" (identifiers FileRole)
  /\ ~ In "manage.py" documented_role_vocabulary.
Proof.
  repeat split.
  - simpl. tauto.
  - simpl. intros H. repeat (destruct H as [H | H]; [discriminate H |]). exact H.
  - simpl. tauto.
  - simpl. intros H. repeat (destruct H as [H | H]; [discriminate H |]). exact H.
Qed.

(** C5: for every string, the membership test of the role validator is true
    exactly when the string is one of the identifiers the Role enumeration
    declares, and false for every other string. *)
Theorem role_membership_by_identifier (s : string) :
  (Meta.role_correct_fn (Py.Str s) = Ok true <-> In s (identifiers FileRole))
  /\ (Meta.role_correct_fn (Py.Str s) = Ok false <-> ~ In s (identifiers FileRole)).
Proof.
  unfold Meta.role_correct_fn, identifiers.
  pose proof (Sym_contains_str (get_all_symbols FileRole) s) as Hc.
  destruct (Sym.contains (get_all_symbols FileRole) (Py.Str s)).
  - split; split; intros H; try (apply Hc; reflexivity); try reflexivity.
    + discriminate H.
    + exfalso. apply H, Hc. reflexivity.
  - split; split; intros H; try reflexivity.
    + discriminate H.
    + apply Hc in H. discriminate H.
    + intros Hin. apply Hc in Hin. discriminate Hin.
Qed.

(** ** FileUnitValidator.explain *)

(** C3: [explain] answers the validator's own message when it is non-empty,
    otherwise the stock message of the problem kind when there is a
    (non-empty) one, and [None] when the own message is empty and the kind
    has no stock message; nothing is made up in that last case. *)
Theorem explain_custom_then_stock_then_none
    (self : UnitValidator) (unit : gmap string string) (field : Symbol)
    (kind : Problem) (message : Py.value) :
  let stock_msg := _explain_map self kind in
  (Py.truthy message = true ->
     FileUnitValidator.explain self unit field kind message = message)
  /\ (Py.truthy message = false -> Py.truthy stock_msg = true ->
     FileUnitValidator.explain self unit field kind message = stock_msg)
  /\ (Py.truthy message = false -> stock_msg = Py.None ->
     FileUnitValidator.explain self unit field kind message = Py.None)
  /\ (Py.truthy message = false -> Py.truthy stock_msg = false ->
     FileUnitValidator.explain self unit field kind message = Py.None).
Proof.
  intros stock_msg. unfold FileUnitValidator.explain, Py.or_. fold stock_msg.
  repeat split.
  - intros Hm. rewrite Hm, Hm. reflexivity.
  - intros Hm Hs. rewrite Hm, Hs. reflexivity.
  - intros Hm Hs. rewrite Hm, Hs. reflexivity.
  - intros Hm Hs. rewrite Hm, Hs. reflexivity.
Qed.

Lemma explain_custom_then_stock_then_none_witness :
  let self := {| _explain_map := fun k =>
                   match k with deprecated => Py.Str "stock" | _ => Py.None end |} in
  FileUnitValidator.explain self ∅ Meta.fields_path deprecated (Py.Str "own") = Py.Str "own"
  /\ FileUnitValidator.explain self ∅ Meta.fields_path deprecated (Py.Str "") = Py.Str "stock"
  /\ FileUnitValidator.explain self ∅ Meta.fields_path deprecated Py.None = Py.Str "stock"
  /\ FileUnitValidator.explain self ∅ Meta.fields_path wrong (Py.Str "") = Py.None.
Proof.
  intros self.
  split; [| split; [| split]].
  - apply (proj1 (explain_custom_then_stock_then_none
                    self ∅ Meta.fields_path deprecated (Py.Str "own"))).
    reflexivity.
  - apply (proj1 (proj2 (explain_custom_then_stock_then_none
                    self ∅ Meta.fields_path deprecated (Py.Str "")))); reflexivity.
  - apply (proj1 (proj2 (explain_custom_then_stock_then_none
                    self ∅ Meta.fields_path deprecated Py.None))); reflexivity.
  - apply (proj1 (proj2 (proj2 (explain_custom_then_stock_then_none
                    self ∅ Meta.fields_path wrong (Py.Str ""))))); reflexivity.
Defined.

(** ** The declared fields and the validator table *)

(** C9: the declared field names are exactly path, role and base; the
    validator table has entries for path and role only, one validator each,
    and none for base. *)
Theorem fields_and_validator_table (default_kind : Problem) (default_severity : Severity) :
  let table := Meta.field_validators default_kind default_severity in
  identifiers Meta.fields = ["path"; "role"; "base"]
  /\ dom table = {[ "path"; "role" ]}
  /\ table !! "path" = Some [Meta.path_validator default_kind default_severity]
  /\ table !! "role" = Some [Meta.role_validator default_kind default_severity]
  /\ table !! "base" = Datatypes.None
  /\ In "base" (identifiers Meta.fields).
Proof.
  intros table. unfold table, Meta.field_validators.
  split; [reflexivity |].
  split; [rewrite dom_insert_L, dom_singleton_L; reflexivity |].
  split; [reflexivity |].
  split; [reflexivity |].
  split; [reflexivity |].
  simpl. tauto.
Qed.

(** ** The validators of the file unit *)

Lemma role_is_unit_source (u : gmap string string) :
  Meta.path_onlyif u = true <-> FileUnit.role u = Py.Str "unit-source".
Proof.
  unfold Meta.path_onlyif. destruct (FileUnit.role u) as [|r].
  - simpl. split; discriminate.
  - rewrite Sym_eq_str. unfold FileRole_unit_source. simpl.
    split; intros H; [now subst | now injection H].
Qed.

Lemma path_present (u : gmap string string) (p : string) :
  u !! "path" = Some p -> get_record_value u "path" = Py.Str p.
Proof. intros H. unfold get_record_value. now rewrite H. Qed.

Section FileUnitValidators.

Variable parent : UnitValidator.
Variable default_kind : Problem.
Variable default_severity : Severity.

Let path_validator := Meta.path_validator default_kind default_severity.
Let role_validator := Meta.role_validator default_kind default_severity.

(** The extension validator is inert unless the role is unit-source,
    whatever the path is, also when there is none. *)
Lemma path_validator_inert (u : gmap string string) :
  FileUnit.role u <> Py.Str "unit-source" ->
  Meta.check parent path_validator u Meta.fields_path = Ok Datatypes.None.
Proof.
  intros Hrole. unfold Meta.check, CorrectFieldValueValidator.evaluate. simpl.
  destruct (Meta.path_onlyif u) eqn:Hg; [| reflexivity].
  apply role_is_unit_source in Hg. contradiction.
Qed.

(** What the extension validator answers on a unit that has a path and
    whose role is unit-source. *)
Lemma path_validator_applicable (u : gmap string string) (p : string) :
  u !! "path" = Some p ->
  FileUnit.role u = Py.Str "unit-source" ->
  Meta.check parent path_validator u Meta.fields_path =
    if String.eqb (snd (PosixPath.splitext p)) ".pxu" then Ok Datatypes.None
    else Ok (Some {| expl_field := Meta.fields_path;
                     expl_kind := deprecated;
                     expl_severity := advice;
                     expl_message := Py.Str Meta.path_message |}).
Proof.
  intros Hp Hrole. unfold Meta.check, CorrectFieldValueValidator.evaluate. simpl.
  apply role_is_unit_source in Hrole. rewrite Hrole. simpl.
  rewrite (path_present u p Hp). simpl.
  destruct (String.eqb (snd (PosixPath.splitext p)) ".pxu"); reflexivity.
Qed.

(** C1: on a unit with a path, the extension validator produces a
    violation exactly when the role is unit-source and the extension of
    the path is not [.pxu]; when the role is not unit-source it produces
    none for any unit, with or without a well-formed path.  suite.txt as
    unit-source is a violation, suite.pxu as unit-source and run.sh as
    script are not. *)
Theorem path_validator_fires_iff :
  (forall (u : gmap string string) (p : string),
      u !! "path" = Some p ->
      (violation (Meta.check parent path_validator u Meta.fields_path) <->
       FileUnit.role u = Py.Str "unit-source"
       /\ snd (PosixPath.splitext p) <> ".pxu"))
  /\ (forall u : gmap string string,
      FileUnit.role u <> Py.Str "unit-source" ->
      Meta.check parent path_validator u Meta.fields_path = Ok Datatypes.None)
  /\ violation (Meta.check parent path_validator
                  {[ "path" := "suite.txt"; "role" := "unit-source" ]} Meta.fields_path)
  /\ Meta.check parent path_validator
       {[ "path" := "suite.pxu"; "role" := "unit-source" ]} Meta.fields_path
     = Ok Datatypes.None
  /\ Meta.check parent path_validator
       {[ "path" := "run.sh"; "role" := "script" ]} Meta.fields_path
     = Ok Datatypes.None.
Proof.
  split; [| split; [exact path_validator_inert | split; [| split]]].
  - intros u p Hp. split.
    + intros [e He].
      destruct (Meta.path_onlyif u) eqn:Hg.
      * apply role_is_unit_source in Hg. split; [exact Hg |].
        rewrite (path_validator_applicable u p Hp Hg) in He.
        intros Hext. rewrite Hext in He. simpl in He. discriminate He.
      * assert (Hne : FileUnit.role u <> Py.Str "unit-source").
        { intros Hr. apply role_is_unit_source in Hr. congruence. }
        rewrite (path_validator_inert u Hne) in He. discriminate He.
    + intros [Hrole Hext].
      rewrite (path_validator_applicable u p Hp Hrole).
      destruct (String.eqb (snd (PosixPath.splitext p)) ".pxu") eqn:E.
      * apply String.eqb_eq in E. contradiction.
      * eexists. reflexivity.
  - eexists. reflexivity.
  - reflexivity.
  - reflexivity.
Qed.

(** C7: every violation of the extension validator has the kind
    deprecated, the severity advice and the one fixed message that
    recommends [.pxu] and ends with the address of the FAQ entry, whatever
    the offending path. *)
Theorem path_violation_classification (u : gmap string string) (e : Explanation) :
  Meta.check parent path_validator u Meta.fields_path = Ok (Some e) ->
  expl_field e = Meta.fields_path
  /\ expl_kind e = deprecated
  /\ expl_severity e = advice
  /\ expl_message e =
       Py.Str "please use .pxu as an extension for all files with plainbox units, see: http://plainbox.readthedocs.org/en/latest/author/faq.html#faq-1"
  /\ occurs_in "http://plainbox.readthedocs.org/en/latest/author/faq.html#faq-1"
       (Py.str (expl_message e)).
Proof.
  unfold Meta.check, CorrectFieldValueValidator.evaluate. simpl.
  destruct (Meta.path_onlyif u); simpl; [| discriminate].
  destruct (Meta.path_correct_fn (get_record_value u "path")) as [[|]|]; try discriminate.
  intros H. injection H as <-. simpl.
  repeat split.
  exists "please use .pxu as an extension for all files with plainbox units, see: ", "".
  reflexivity.
Qed.

(** What the role validator answers on any unit. *)
Lemma role_validator_result (u : gmap string string) :
  Meta.check parent role_validator u Meta.fields_role =
    if Sym.contains (get_all_symbols FileRole) (FileUnit.role u)
    then Ok Datatypes.None
    else Ok (Some {| expl_field := Meta.fields_role;
                     expl_kind := default_kind;
                     expl_severity := default_severity;
                     expl_message := Py.Str Meta.role_message |}).
Proof. reflexivity. Qed.

(** C2 (amended): the role validator produces a violation exactly when the
    raw role value is not in the symbol set of the Role enumeration.  A
    role that is not set, or is the empty string, is not in the set and is
    a violation like bogus; docs is none. *)
Theorem role_validator_fires_iff :
  (forall u : gmap string string,
      violation (Meta.check parent role_validator u Meta.fields_role) <->
      Sym.contains (get_all_symbols FileRole) (FileUnit.role u) = false)
  /\ (forall u : gmap string string,
      u !! "role" = Datatypes.None ->
      violation (Meta.check parent role_validator u Meta.fields_role))
  /\ violation (Meta.check parent role_validator {[ "role" := "" ]} Meta.fields_role)
  /\ violation (Meta.check parent role_validator {[ "role" := "bogus" ]} Meta.fields_role)
  /\ Meta.check parent role_validator {[ "role" := "docs" ]} Meta.fields_role
     = Ok Datatypes.None.
Proof.
  assert (Hiff : forall u : gmap string string,
      violation (Meta.check parent role_validator u Meta.fields_role) <->
      Sym.contains (get_all_symbols FileRole) (FileUnit.role u) = false).
  { intros u. unfold violation. rewrite role_validator_result.
    destruct (Sym.contains (get_all_symbols FileRole) (FileUnit.role u)).
    - split; [intros [e He]; discriminate He | discriminate].
    - split; [reflexivity | intros _; eexists; reflexivity]. }
  split; [exact Hiff | split; [| split; [| split]]].
  - intros u Hnone. apply Hiff. unfold FileUnit.role, get_record_value.
    rewrite Hnone. apply Sym_contains_None.
  - eexists. reflexivity.
  - eexists. reflexivity.
  - reflexivity.
Qed.

End FileUnitValidators.

(** ** Sorting and the order of symbols *)

Section SortFacts.

Context {A : Type} (lt : A -> A -> bool).

Hypothesis lt_irrefl : forall a, lt a a = false.
Hypothesis lt_trans : forall a b c, lt a b = true -> lt b c = true -> lt a c = true.
Hypothesis lt_total : forall a b, lt a b = false -> lt b a = false -> a = b.

(** [a] may stand in front of [b]. *)
Local Abbreviation le := (fun a b => lt b a = false).

Lemma insort_perm (x : A) (l : list A) : Permutation (Py.insort lt x l) (x :: l).
Proof.
  induction l as [|y r IH]; simpl.
  - apply Permutation_refl.
  - destruct (lt x y).
    + apply Permutation_refl.
    + eapply perm_trans; [apply perm_skip, IH | apply perm_swap].
Qed.

Lemma sorted_from_perm (items acc : list A) :
  Permutation (Py.sorted_from lt acc items) (acc ++ items).
Proof.
  revert acc. induction items as [|x r IH]; intros acc; simpl.
  - rewrite app_nil_r. apply Permutation_refl.
  - eapply perm_trans; [apply IH |].
    eapply perm_trans; [apply Permutation_app_tail, insort_perm |].
    simpl. apply Permutation_middle.
Qed.

Lemma sorted_perm (items : list A) : Permutation (Py.sorted lt items) items.
Proof. apply (sorted_from_perm items []). Qed.

Lemma insort_sorted (x : A) (l : list A) :
  StronglySorted le l -> StronglySorted le (Py.insort lt x l).
Proof.
  induction 1 as [|y r Hr IH Hy]; simpl.
  - constructor; [constructor | constructor].
  - destruct (lt x y) eqn:Hxy.
    + constructor; [constructor; assumption |].
      constructor.
      * destruct (lt y x) eqn:Hyx; [| reflexivity].
        rewrite <- (lt_irrefl x). symmetry. now apply (lt_trans x y x).
      * rewrite List.Forall_forall in *. intros z Hz.
        destruct (lt z x) eqn:Hzx; [| reflexivity].
        rewrite <- (Hy z Hz). symmetry. now apply (lt_trans z x y).
    + constructor; [exact IH |].
      rewrite List.Forall_forall in *. intros z Hz.
      apply (Permutation_in _ (insort_perm x r)) in Hz.
      destruct Hz as [<- | Hz]; [exact Hxy | now apply Hy].
Qed.

Lemma sorted_from_sorted (items acc : list A) :
  StronglySorted le acc -> StronglySorted le (Py.sorted_from lt acc items).
Proof.
  revert acc. induction items as [|x r IH]; intros acc Hacc; simpl.
  - exact Hacc.
  - apply IH, insort_sorted, Hacc.
Qed.

Lemma sorted_sorted (items : list A) : StronglySorted le (Py.sorted lt items).
Proof. apply sorted_from_sorted. constructor. Qed.

(** Two sorted arrangements of the same items are the same list. *)
Lemma sorted_unique (l1 l2 : list A) :
  StronglySorted le l1 -> StronglySorted le l2 -> Permutation l1 l2 -> l1 = l2.
Proof.
  intros H1. revert l2. induction H1 as [|x r1 Hr1 IH Hx]; intros l2 H2 Hperm.
  - apply Permutation_nil in Hperm. now subst.
  - destruct H2 as [|y r2 Hr2 Hy].
    + apply Permutation_sym, Permutation_nil in Hperm. discriminate Hperm.
    + assert (Hxy : x = y).
      { rewrite List.Forall_forall in Hx, Hy.
        assert (Hin1 : In x (y :: r2))
          by (apply (Permutation_in _ Hperm); now left).
        assert (Hin2 : In y (x :: r1))
          by (apply (Permutation_in _ (Permutation_sym Hperm)); now left).
        destruct Hin1 as [-> | Hin1]; [reflexivity |].
        destruct Hin2 as [-> | Hin2]; [reflexivity |].
        apply lt_total; [now apply Hy | now apply Hx]. }
      subst y. f_equal. apply IH; [exact Hr2 |].
      now apply Permutation_cons_inv in Hperm.
Qed.

(** The result of [sorted] does not depend on the order of its input. *)
Lemma sorted_order_independent (l1 l2 : list A) :
  Permutation l1 l2 -> Py.sorted lt l1 = Py.sorted lt l2.
Proof.
  intros Hperm. apply sorted_unique; try apply sorted_sorted.
  eapply perm_trans; [apply sorted_perm |].
  eapply perm_trans; [exact Hperm | apply Permutation_sym, sorted_perm].
Qed.

End SortFacts.

Lemma string_compare_refl (s : string) : String.compare s s = Eq.
Proof.
  induction s as [|c s IH]; simpl; [reflexivity |].
  unfold Ascii.compare. now rewrite N.compare_refl.
Qed.

Lemma string_compare_lt_trans (a b c : string) :
  String.compare a b = Lt -> String.compare b c = Lt -> String.compare a c = Lt.
Proof.
  revert b c. induction a as [|x a IH]; intros [|y b] [|z c]; simpl;
    try discriminate; auto.
  unfold Ascii.compare.
  destruct (N.compare_spec (N_of_ascii x) (N_of_ascii y)) as [Hxy|Hxy|Hxy];
    try discriminate;
    destruct (N.compare_spec (N_of_ascii y) (N_of_ascii z)) as [Hyz|Hyz|Hyz];
    try discriminate; intros H1 H2.
  - rewrite Hxy, Hyz, N.compare_refl. now apply (IH b c).
  - replace (N_of_ascii x ?= N_of_ascii z)%N with Lt; [reflexivity |].
    symmetry. apply N.compare_lt_iff. lia.
  - replace (N_of_ascii x ?= N_of_ascii z)%N with Lt; [reflexivity |].
    symmetry. apply N.compare_lt_iff. lia.
  - replace (N_of_ascii x ?= N_of_ascii z)%N with Lt; [reflexivity |].
    symmetry. apply N.compare_lt_iff. lia.
Qed.

Lemma Sym_lt_irrefl (a : Symbol) : Sym.lt a a = false.
Proof. unfold Sym.lt, String.ltb. now rewrite string_compare_refl. Qed.

Lemma Sym_lt_trans (a b c : Symbol) :
  Sym.lt a b = true -> Sym.lt b c = true -> Sym.lt a c = true.
Proof.
  unfold Sym.lt, String.ltb. intros H1 H2.
  destruct (String.compare (symbol_name a) (symbol_name b)) eqn:E1; try discriminate.
  destruct (String.compare (symbol_name b) (symbol_name c)) eqn:E2; try discriminate.
  now rewrite (string_compare_lt_trans _ _ _ E1 E2).
Qed.

Lemma Sym_lt_total (a b : Symbol) :
  Sym.lt a b = false -> Sym.lt b a = false -> a = b.
Proof.
  unfold Sym.lt, String.ltb. rewrite (String.compare_antisym (symbol_name b)).
  destruct a as [na], b as [nb]. simpl.
  destruct (String.compare na nb) eqn:E; simpl; try discriminate.
  intros _ _. f_equal. now apply String.compare_eq_iff.
Qed.

(** ** The message of the role validator *)

(** C6: the message of the role validator is the text [valid values are: ]
    followed by the identifiers of all the Role symbols, sorted by
    identifier and joined with commas; the rendering is the same whatever
    the order in which the Role class declares its symbols.  The validator
    names no kind and no severity, so a violation carries the default
    severity and this message. *)
Theorem role_message_sorted_roles
    (parent : UnitValidator) (default_kind : Problem) (default_severity : Severity) :
  let validator := Meta.role_validator default_kind default_severity in
  let names := List.map Sym.str (Py.sorted Sym.lt (get_all_symbols FileRole)) in
  CorrectFieldValueValidator.message validator =
    Py.Str ("valid values are: " ++ Py.join ", " names)
  /\ Py.join ", " names =
       "binary, build, data, docs, i18n, invalid, legacy-whitelist, legal, manage.py, script, src, unit-source, unknown, vcs"
  /\ Permutation names (identifiers FileRole)
  /\ StronglySorted (fun a b => String.ltb a b = true) names
  /\ (forall cls : SymbolDef,
        Permutation cls FileRole ->
        List.map Sym.str (Py.sorted Sym.lt (get_all_symbols cls)) = names)
  /\ CorrectFieldValueValidator.severity validator = default_severity
  /\ CorrectFieldValueValidator.kind validator = default_kind
  /\ (forall (u : gmap string string) (e : Explanation),
        Meta.check parent validator u Meta.fields_role = Ok (Some e) ->
        expl_severity e = default_severity
        /\ expl_message e = CorrectFieldValueValidator.message validator).
Proof.
  intros validator names.
  split; [reflexivity |].
  split; [reflexivity |].
  split.
  { unfold names, identifiers.
    apply (Permutation_map Sym.str (l := Py.sorted Sym.lt (get_all_symbols FileRole))).
    apply sorted_perm. }
  split.
  { unfold names. vm_compute.
    repeat (constructor; [| repeat (constructor; try reflexivity)]).
    constructor. }
  split.
  { intros cls Hperm. unfold names. f_equal.
    apply (sorted_order_independent Sym.lt Sym_lt_irrefl Sym_lt_trans Sym_lt_total).
    unfold get_all_symbols. now apply Permutation_map. }
  split; [reflexivity |].
  split; [reflexivity |].
  intros u e. unfold validator. rewrite role_validator_result.
  destruct (Sym.contains (get_all_symbols FileRole) (FileUnit.role u)); [discriminate |].
  intros H. injection H as <-. split; reflexivity.
Qed.

(** ** String conversion and representation of a file unit *)

Lemma append_cons (x : ascii) (a b : string) : String x a ++ b = String x (a ++ b).
Proof. reflexivity. Qed.

Lemma append_assoc (a b c : string) : (a ++ b) ++ c = a ++ (b ++ c).
Proof.
  induction a as [|x a IH]; [reflexivity |].
  rewrite !append_cons. f_equal. exact IH.
Qed.

Lemma append_nil_r (a : string) : a ++ "" = a.
Proof.
  induction a as [|x a IH]; [reflexivity |].
  rewrite append_cons. f_equal. exact IH.
Qed.

Lemma prefix_append (needle rest : string) : String.prefix needle (needle ++ rest) = true.
Proof.
  induction needle as [|c needle IH]; [destruct rest; reflexivity |].
  rewrite append_cons. simpl.
  destruct (ascii_dec c c) as [_ | Hne]; [exact IH | now elim Hne].
Qed.

Lemma str_contains_prefix (needle hay : string) :
  String.prefix needle hay = true -> str_contains needle hay = true.
Proof. intros H. destruct hay; unfold str_contains; rewrite H; reflexivity. Qed.

Lemma occurs_in_str_contains (needle hay : string) :
  occurs_in needle hay -> str_contains needle hay = true.
Proof.
  intros [before [after ->]].
  induction before as [|c before IH].
  - change ("" ++ needle ++ after) with (needle ++ after).
    apply str_contains_prefix, prefix_append.
  - rewrite append_cons. simpl str_contains. rewrite IH. apply orb_true_r.
Qed.

Lemma repr_char_copied (quote c : ascii) :
  copied_by_repr c = true -> Ascii.eqb c quote = false ->
  Py.repr_char quote c = String c "".
Proof.
  unfold copied_by_repr, Py.repr_char, Py.latin1_printable.
  intros H Hq. rewrite Hq.
  destruct (Ascii.eqb c Py.backslash); [discriminate H |].
  simpl in H |- *.
  set (n := N_of_ascii c) in *.
  assert (Hn : (32 <= n < 127)%N \/ (160 < n /\ n <> 173)%N).
  { apply orb_true_iff in H. destruct H as [H | H].
    - apply andb_true_iff in H. destruct H as [H1 H2].
      apply N.leb_le in H1. apply N.ltb_lt in H2. left. lia.
    - apply andb_true_iff in H. destruct H as [H1 H2].
      apply negb_true_iff, orb_false_iff in H2. destruct H2 as [H2 H3].
      apply N.leb_gt in H2. apply N.eqb_neq in H3. right. lia. }
  replace (n =? 9)%N with false by (symmetry; apply N.eqb_neq; lia).
  replace (n =? 10)%N with false by (symmetry; apply N.eqb_neq; lia).
  replace (n =? 13)%N with false by (symmetry; apply N.eqb_neq; lia).
  replace (n <? 32)%N with false by (symmetry; apply N.ltb_ge; lia).
  replace (n =? 127)%N with false by (symmetry; apply N.eqb_neq; lia).
  simpl. destruct Hn as [Hn | Hn].
  - replace (n <? 127)%N with true by (symmetry; apply N.ltb_lt; lia). reflexivity.
  - replace (n <? 127)%N with false by (symmetry; apply N.ltb_ge; lia).
    replace (n <=? 160)%N with false by (symmetry; apply N.leb_gt; lia).
    replace (n =? 173)%N with false by (symmetry; apply N.eqb_neq; lia).
    reflexivity.
Qed.

Lemma repr_body_copied (quote : ascii) (s : string) :
  all_chars copied_by_repr s = true -> Py.contains_char quote s = false ->
  Py.repr_body quote s = s.
Proof.
  induction s as [|c s IH]; simpl; [reflexivity |].
  intros Hall Hq. apply andb_true_iff in Hall. destruct Hall as [Hc Hall].
  apply orb_false_iff in Hq. destruct Hq as [Hcq Hq].
  rewrite (repr_char_copied quote c Hc Hcq), (IH Hall Hq). reflexivity.
Qed.

(** [repr] of a string it keeps verbatim is that string between two quotes. *)
Lemma repr_str_verbatim (s : string) :
  repr_verbatim s = true ->
  exists quote, Py.repr_str s = String quote (s ++ String quote "").
Proof.
  unfold repr_verbatim, Py.repr_str. intros H.
  apply andb_true_iff in H. destruct H as [Hall Hquotes].
  apply negb_true_iff in Hquotes.
  destruct (Py.contains_char Py.single_quote s) eqn:Hs;
    destruct (Py.contains_char Py.double_quote s) eqn:Hd;
    simpl in Hquotes |- *; try discriminate Hquotes.
  - exists Py.double_quote. now rewrite (repr_body_copied _ _ Hall Hd).
  - exists Py.single_quote. now rewrite (repr_body_copied _ _ Hall Hs).
  - exists Py.single_quote. now rewrite (repr_body_copied _ _ Hall Hs).
Qed.

Lemma repr_format (u : gmap string string) :
  FileUnit.__repr__ u =
    "<FileUnit path:" ++ Py.repr (FileUnit.path u)
      ++ ", role:" ++ Py.repr (FileUnit.role u) ++ ">".
Proof. reflexivity. Qed.

(** C8 (amended): the string conversion of a file unit is the value of its
    path field; its representation is the text [<FileUnit path:P, role:R>]
    where P and R are the [repr] of the path and of the role, so that it
    holds the path, and the role, verbatim whenever [repr] only puts that
    string between quotes: all its characters are printable, none is a
    backslash, and it does not hold both a single and a double quote. *)
Theorem file_unit_str_repr (u : gmap string string) :
  FileUnit.__str__ u = get_record_value u "path"
  /\ FileUnit.__repr__ u =
       "<FileUnit path:" ++ Py.repr (get_record_value u "path")
         ++ ", role:" ++ Py.repr (get_record_value u "role") ++ ">"
  /\ (forall p : string,
        u !! "path" = Some p -> repr_verbatim p = true ->
        occurs_in p (FileUnit.__repr__ u))
  /\ (forall r : string,
        u !! "role" = Some r -> repr_verbatim r = true ->
        occurs_in r (FileUnit.__repr__ u)).
Proof.
  split; [reflexivity |].
  split; [apply repr_format |].
  split.
  - intros p Hp Hv. rewrite repr_format. unfold FileUnit.path.
    rewrite (path_present u p Hp). simpl Py.repr.
    destruct (repr_str_verbatim p Hv) as [quote ->].
    exists ("<FileUnit path:" ++ String quote ""),
           (String quote "" ++ ", role:" ++ Py.repr (FileUnit.role u) ++ ">").
    rewrite (append_assoc "<FileUnit path:"). f_equal.
    rewrite !append_cons, append_assoc. reflexivity.
  - intros r Hr Hv. rewrite repr_format.
    assert (Hrole : FileUnit.role u = Py.Str r)
      by (unfold FileUnit.role, get_record_value; now rewrite Hr).
    rewrite Hrole. simpl Py.repr.
    destruct (repr_str_verbatim r Hv) as [quote ->].
    exists ("<FileUnit path:" ++ Py.repr (FileUnit.path u) ++ ", role:" ++ String quote ""),
           (String quote "" ++ ">").
    rewrite (append_assoc "<FileUnit path:"). f_equal.
    rewrite (append_assoc (Py.repr (FileUnit.path u))). f_equal.
    rewrite (append_assoc ", role:"). f_equal.
    rewrite !append_cons, append_assoc. reflexivity.
Qed.

(** ** os.path.splitext and the extension predicate *)

Lemma take_drop (n : nat) (s : string) : Py.take n s ++ Py.drop n s = s.
Proof.
  revert s. induction n as [|n IH]; intros [|c s]; try reflexivity.
  simpl. rewrite append_cons. f_equal. apply IH.
Qed.

Lemma take_append (a b : string) : Py.take (String.length a) (a ++ b) = a.
Proof.
  induction a as [|x a IH]; [destruct b; reflexivity |].
  rewrite append_cons. simpl. f_equal. exact IH.
Qed.

Lemma drop_append (a b : string) : Py.drop (String.length a) (a ++ b) = b.
Proof.
  induction a as [|x a IH]; [destruct b; reflexivity |].
  rewrite append_cons. simpl. exact IH.
Qed.

Lemma contains_char_append (c : ascii) (a b : string) :
  Py.contains_char c (a ++ b) = Py.contains_char c a || Py.contains_char c b.
Proof.
  induction a as [|x a IH]; [reflexivity |].
  rewrite append_cons. simpl. rewrite IH. apply orb_assoc.
Qed.

(** What [rfind] answers: the needle is nowhere and the answer is the
    starting value, or the string splits at the last needle. *)
Lemma rfind_from_spec (s : string) (c : ascii) (i last : Z) :
  (Py.contains_char c s = false /\ Py.rfind_from s c i last = last)
  \/ (exists before after,
        s = before ++ String c after
        /\ Py.contains_char c after = false
        /\ Py.rfind_from s c i last = i + Z.of_nat (String.length before)).
Proof.
  revert i last. induction s as [|x s IH]; intros i last.
  - left. split; reflexivity.
  - simpl. destruct (IH (i + 1) (if Ascii.eqb x c then i else last))
      as [[Hno Hr] | [before [after [Hs [Hno Hr]]]]].
    + destruct (Ascii.eqb x c) eqn:Hx.
      * right. exists "", s. apply Ascii.eqb_eq in Hx. subst x.
        split; [reflexivity | split; [exact Hno |]].
        rewrite Hr. simpl. lia.
      * left. split; [exact Hno | exact Hr].
    + right. exists (String x before), after.
      split; [rewrite append_cons; now f_equal | split; [exact Hno |]].
      rewrite Hr. simpl String.length. lia.
Qed.

Lemma rfind_spec (s : string) (c : ascii) :
  (Py.contains_char c s = false /\ Py.rfind s c = -1)
  \/ (exists before after,
        s = before ++ String c after
        /\ Py.contains_char c after = false
        /\ Py.rfind s c = Z.of_nat (String.length before)).
Proof.
  unfold Py.rfind. destruct (rfind_from_spec s c 0 (-1)) as [H | H]; [now left |].
  right. destruct H as [before [after [H1 [H2 H3]]]].
  exists before, after. rewrite H3. repeat split; assumption.
Qed.

(** Of two splittings of one string, the one that splits later has the
    shorter rest, which ends the other rest. *)
Lemma later_split_is_suffix (a a' b b' : string) (c c' : ascii) :
  a ++ String c b = a' ++ String c' b' ->
  (String.length a' < String.length a)%nat ->
  exists m, b' = m ++ String c b.
Proof.
  revert a. induction a' as [|x a' IH]; intros [|y a] Heq Hlen;
    simpl in Hlen; try lia.
  - rewrite append_cons in Heq. injection Heq as _ Heq. now exists a.
  - rewrite !append_cons in Heq. injection Heq as _ Heq.
    apply (IH a Heq). lia.
Qed.

Lemma skip_leading_dots_cases (p : string) (dotIndex filenameIndex : Z) (todo : nat) :
  PosixPath.skip_leading_dots p dotIndex filenameIndex todo = (p, "")
  \/ PosixPath.skip_leading_dots p dotIndex filenameIndex todo
     = (Py.slice_to p dotIndex, Py.slice_from p dotIndex).
Proof.
  revert filenameIndex. induction todo as [|todo IH]; intros filenameIndex; simpl.
  - left. reflexivity.
  - destruct (negb _); [right; reflexivity | apply IH].
Qed.

(** The two parts [splitext] gives make up the path, and the extension is
    empty or is the last dot of the path with what follows it, which holds
    no further dot and no separator. *)
Lemma splitext_shape (p : string) :
  fst (PosixPath.splitext p) ++ snd (PosixPath.splitext p) = p
  /\ (snd (PosixPath.splitext p) = ""
      \/ exists name,
           snd (PosixPath.splitext p) = String "." name
           /\ Py.contains_char "." name = false
           /\ Py.contains_char "/" name = false).
Proof.
  unfold PosixPath.splitext.
  destruct (Py.rfind p PosixPath.extsep >? Py.rfind p PosixPath.sep) eqn:Hgt;
    [| simpl; split; [apply append_nil_r | now left]].
  apply Z.gtb_lt in Hgt.
  destruct (skip_leading_dots_cases p (Py.rfind p PosixPath.extsep)
              (Py.rfind p PosixPath.sep + 1)
              (Z.to_nat (Py.rfind p PosixPath.extsep - (Py.rfind p PosixPath.sep + 1))))
    as [-> | ->]; [simpl; split; [apply append_nil_r | now left] |].
  simpl. split; [apply take_drop |].
  destruct (rfind_spec p PosixPath.extsep) as [[_ Hd] | [before [after [Hp [Hno Hd]]]]].
  - destruct (rfind_spec p PosixPath.sep) as [[_ Hs] | [b' [a' [_ [_ Hs]]]]]; lia.
  - right. exists after. unfold Py.slice_from. rewrite Hd, Nat2Z.id.
    rewrite Hp at 1. rewrite drop_append.
    split; [reflexivity | split; [exact Hno |]].
    destruct (rfind_spec p PosixPath.sep) as [[Hnone _] | [b' [a' [Hp' [Hno' Hs]]]]].
    + rewrite Hp, contains_char_append in Hnone.
      apply orb_false_iff in Hnone. destruct Hnone as [_ Hnone].
      simpl in Hnone. exact Hnone.
    + assert (Hlen : (String.length b' < String.length before)%nat) by lia.
      rewrite Hp in Hp'.
      destruct (later_split_is_suffix _ _ _ _ _ _ Hp' Hlen) as [m Hm].
      rewrite Hm, contains_char_append in Hno'.
      apply orb_false_iff in Hno'. destruct Hno' as [_ Hno'].
      simpl in Hno'. exact Hno'.
Qed.

(** A path without a dot has no extension. *)
Lemma splitext_no_dot (p : string) :
  Py.contains_char "." p = false -> PosixPath.splitext p = (p, "").
Proof.
  intros Hno. unfold PosixPath.splitext.
  destruct (rfind_spec p PosixPath.extsep) as [[_ Hd] | [before [after [Hp _]]]].
  - rewrite Hd.
    destruct (rfind_spec p PosixPath.sep) as [[_ Hs] | [b' [a' [_ [_ Hs]]]]];
      rewrite Hs.
    + reflexivity.
    + destruct (-1 >? Z.of_nat (String.length b')) eqn:E; [| reflexivity].
      apply Z.gtb_lt in E. lia.
  - rewrite Hp, contains_char_append in Hno. apply orb_false_iff in Hno.
    destruct Hno as [_ Hno]. simpl in Hno. discriminate Hno.
Qed.

Lemma length_append (a b : string) :
  String.length (a ++ b) = (String.length a + String.length b)%nat.
Proof.
  induction a as [|x a IH]; [reflexivity |].
  rewrite append_cons. simpl. now rewrite IH.
Qed.

Lemma length_take (n : nat) (s : string) :
  (n <= String.length s)%nat -> String.length (Py.take n s) = n.
Proof.
  revert s. induction n as [|n IH]; intros [|c s] Hn; simpl in *; try lia.
  rewrite IH; lia.
Qed.

Lemma get_append (a : string) (x : ascii) (rest : string) :
  String.get (String.length a) (a ++ String x rest) = Some x.
Proof.
  induction a as [|y a IH]; [reflexivity |].
  rewrite append_cons. simpl. exact IH.
Qed.

Lemma rfind_from_absent (s : string) (c : ascii) (i last : Z) :
  Py.contains_char c s = false -> Py.rfind_from s c i last = last.
Proof.
  revert i last. induction s as [|x s IH]; intros i last H; [reflexivity |].
  simpl in H |- *. apply orb_false_iff in H. destruct H as [Hx Hs].
  rewrite Hx. now apply IH.
Qed.

Lemma rfind_from_append (a b : string) (c : ascii) (i last : Z) :
  Py.rfind_from (a ++ b) c i last =
    Py.rfind_from b c (i + Z.of_nat (String.length a)) (Py.rfind_from a c i last).
Proof.
  revert i last. induction a as [|x a IH]; intros i last.
  - change ("" ++ b) with b. simpl. now rewrite Z.add_0_r.
  - rewrite append_cons. simpl Py.rfind_from. rewrite IH. f_equal.
    simpl String.length. lia.
Qed.

(** [rfind] of the character at which the string splits last. *)
Lemma rfind_last (before after : string) (c : ascii) :
  Py.contains_char c after = false ->
  Py.rfind (before ++ String c after) c = Z.of_nat (String.length before).
Proof.
  intros Hno. unfold Py.rfind. rewrite rfind_from_append. simpl.
  rewrite Ascii.eqb_refl. now apply rfind_from_absent.
Qed.

(** [rfind] does not see a tail that is free of the needle. *)
Lemma rfind_tail_absent (before tail : string) (c : ascii) :
  Py.contains_char c tail = false ->
  Py.rfind (before ++ tail) c = Py.rfind before c.
Proof.
  intros Hno. unfold Py.rfind. rewrite rfind_from_append.
  now apply rfind_from_absent.
Qed.

Lemma rfind_bounds (s : string) (c : ascii) :
  -1 <= Py.rfind s c < Z.of_nat (String.length s).
Proof.
  destruct (rfind_spec s c) as [[_ H] | [before [after [Hs [_ H]]]]]; rewrite H.
  - lia.
  - rewrite Hs, length_append. simpl String.length. lia.
Qed.

(** The loop over a stretch [b] of the path that starts after [a]: it ends
    without a split exactly when [b] is made of dots only. *)
Lemma skip_leading_dots_stretch (a b rest : string) (dotIndex : Z) :
  PosixPath.skip_leading_dots (a ++ b ++ rest) dotIndex
    (Z.of_nat (String.length a)) (String.length b)
  = if all_chars is_dot b then (a ++ b ++ rest, "")
    else (Py.slice_to (a ++ b ++ rest) dotIndex, Py.slice_from (a ++ b ++ rest) dotIndex).
Proof.
  revert a. induction b as [|x b IH]; intros a; [reflexivity |].
  simpl PosixPath.skip_leading_dots. unfold Py.slice1.
  rewrite Nat2Z.id, append_cons, get_append.
  change (String.eqb (String x "") (String PosixPath.extsep ""))
    with (Ascii.eqb x PosixPath.extsep && true).
  rewrite andb_true_r. simpl all_chars. unfold is_dot at 1.
  destruct (Ascii.eqb x PosixPath.extsep); simpl; [| reflexivity].
  specialize (IH (a ++ String x "")).
  rewrite length_append in IH. simpl String.length in IH.
  rewrite append_assoc in IH. change (String x "" ++ b ++ rest) with (String x (b ++ rest)) in IH.
  replace (Z.of_nat (String.length a) + 1) with (Z.of_nat (String.length a + 1)) by lia.
  exact IH.
Qed.

(** [splitext] on a path cut at its last dot, when no separator follows
    that dot: the extension starts at the dot unless the last component has
    nothing but dots in front of it. *)
Lemma splitext_at_last_dot (root name : string) :
  Py.contains_char "." name = false ->
  Py.contains_char "/" name = false ->
  PosixPath.splitext (root ++ String "." name) =
    if all_chars is_dot (last_component root)
    then (root ++ String "." name, "")
    else (root, String "." name).
Proof.
  intros Hdot Hsep. unfold PosixPath.splitext.
  change PosixPath.extsep with "."%char. change PosixPath.sep with "/"%char.
  rewrite (rfind_last root name "."%char Hdot).
  rewrite (rfind_tail_absent root (String "." name) "/"%char) by exact Hsep.
  pose proof (rfind_bounds root "/"%char) as Hb.
  destruct (Z.of_nat (String.length root) >? Py.rfind root "/") eqn:Hgt;
    [| rewrite Z.gtb_ltb in Hgt; apply Z.ltb_ge in Hgt; lia].
  unfold last_component, Py.slice_from. change PosixPath.sep with "/"%char.
  set (k := Z.to_nat (Py.rfind root "/" + 1)).
  assert (Hk : (k <= String.length root)%nat) by (unfold k; lia).
  pose proof (take_drop k root) as Hroot.
  pose proof (length_take k root Hk) as Hlen.
  assert (Hp : root ++ String "." name
               = Py.take k root ++ Py.drop k root ++ String "." name).
  { rewrite <- append_assoc, Hroot. reflexivity. }
  assert (Htodo : Z.to_nat (Z.of_nat (String.length root) - (Py.rfind root "/" + 1))
                  = String.length (Py.drop k root)).
  { rewrite <- Hroot at 1. rewrite length_append, Hlen. unfold k. lia. }
  assert (Hstart : Py.rfind root "/" + 1 = Z.of_nat (String.length (Py.take k root))).
  { rewrite Hlen. unfold k. lia. }
  rewrite Htodo, Hstart. rewrite Hp at 1.
  rewrite skip_leading_dots_stretch, <- Hp.
  destruct (all_chars is_dot (Py.drop k root)); [reflexivity |].
  unfold Py.slice_to, Py.slice_from. rewrite Nat2Z.id, take_append, drop_append.
  reflexivity.
Qed.

(** C10: the extension predicate looks at the extension [splitext] gives,
    which is empty or is the last dot of the path with what follows it, and
    accepts the path exactly when that extension is [.pxu]; that is the
    case exactly when the path is some root followed by [.pxu] where the
    last component of the root is not made of dots only.  So suite.pxu.in
    (extension [.in]) and a path without a dot (empty extension) are
    violations for a unit-source unit, and suite.txt.pxu is accepted. *)
Theorem extension_is_last_suffix
    (parent : UnitValidator) (default_kind : Problem) (default_severity : Severity) :
  let validator := Meta.path_validator default_kind default_severity in
  (forall p : string,
      Meta.path_correct_fn (Py.Str p) = Ok true <-> snd (PosixPath.splitext p) = ".pxu")
  /\ (forall p : string,
        fst (PosixPath.splitext p) ++ snd (PosixPath.splitext p) = p
        /\ (snd (PosixPath.splitext p) = ""
            \/ exists name,
                 snd (PosixPath.splitext p) = String "." name
                 /\ Py.contains_char "." name = false
                 /\ Py.contains_char "/" name = false))
  /\ (forall p : string,
        snd (PosixPath.splitext p) = ".pxu" <->
        exists root, p = root ++ ".pxu"
                     /\ all_chars is_dot (last_component root) = false)
  /\ (forall p : string,
        Py.contains_char "." p = false ->
        Meta.path_correct_fn (Py.Str p) = Ok false)
  /\ PosixPath.splitext "suite.pxu.in" = ("suite.pxu", ".in")
  /\ PosixPath.splitext "suite.txt.pxu" = ("suite.txt", ".pxu")
  /\ PosixPath.splitext "suite" = ("suite", "")
  /\ violation (Meta.check parent validator
                  {[ "path" := "suite.pxu.in"; "role" := "unit-source" ]} Meta.fields_path)
  /\ Meta.check parent validator
       {[ "path" := "suite.txt.pxu"; "role" := "unit-source" ]} Meta.fields_path
     = Ok Datatypes.None
  /\ (forall (u : gmap string string) (p : string),
        u !! "path" = Some p ->
        FileUnit.role u = Py.Str "unit-source" ->
        Py.contains_char "." p = false ->
        violation (Meta.check parent validator u Meta.fields_path)).
Proof.
  intros validator.
  assert (Hiff : forall p : string,
      snd (PosixPath.splitext p) = ".pxu" <->
      exists root, p = root ++ ".pxu"
                   /\ all_chars is_dot (last_component root) = false).
  { intros p. split.
    - intros Hext. destruct (splitext_shape p) as [Hcat _].
      exists (fst (PosixPath.splitext p)).
      split; [now rewrite <- Hext |].
      rewrite Hext in Hcat. rewrite <- Hcat in Hext.
      rewrite (splitext_at_last_dot (fst (PosixPath.splitext p)) "pxu") in Hext
        by reflexivity.
      destruct (all_chars is_dot (last_component (fst (PosixPath.splitext p))));
        [discriminate Hext | reflexivity].
    - intros [root [-> Hroot]].
      rewrite (splitext_at_last_dot root "pxu") by reflexivity.
      now rewrite Hroot. }
  split.
  { intros p. unfold Meta.path_correct_fn. split.
    - intros H. injection H as H. now apply String.eqb_eq.
    - intros H. f_equal. now apply String.eqb_eq. }
  split; [exact splitext_shape |].
  split; [exact Hiff |].
  split.
  { intros p Hno. unfold Meta.path_correct_fn.
    now rewrite (splitext_no_dot p Hno). }
  split; [reflexivity |].
  split; [reflexivity |].
  split; [reflexivity |].
  split; [eexists; reflexivity |].
  split; [reflexivity |].
  intros u p Hp Hrole Hno. unfold validator.
  rewrite (path_validator_applicable parent default_kind default_severity u p Hp Hrole).
  rewrite (splitext_no_dot p Hno). eexists. reflexivity.
Qed.

(** * Concrete cases *)

(** C1 at the unit with the path suite.txt and the role unit-source. *)
Lemma path_validator_fires_iff_witness :
  unit_suite_txt !! "path" = Some "suite.txt"
  /\ (violation (Meta.check no_stock_messages (Meta.path_validator wrong error)
                  unit_suite_txt Meta.fields_path)
      <-> FileUnit.role unit_suite_txt = Py.Str "unit-source"
          /\ snd (PosixPath.splitext "suite.txt") <> ".pxu")
  /\ Meta.check no_stock_messages (Meta.path_validator wrong error)
       unit_without_role Meta.fields_path = Ok Datatypes.None.
Proof.
  split; [reflexivity | split].
  - apply (proj1 (path_validator_fires_iff no_stock_messages wrong error)).
    reflexivity.
  - apply (proj1 (proj2 (path_validator_fires_iff no_stock_messages wrong error))).
    discriminate.
Defined.

(** C2 (amended) at a unit that has no role. *)
Lemma role_validator_fires_iff_witness :
  unit_without_role !! "role" = Datatypes.None
  /\ violation (Meta.check no_stock_messages (Meta.role_validator wrong error)
                  unit_without_role Meta.fields_role).
Proof.
  split; [reflexivity |].
  apply (proj1 (proj2 (role_validator_fires_iff no_stock_messages wrong error))).
  reflexivity.
Defined.

(** C2 as worded fails: a unit whose role is not set gets a violation from
    the role validator. *)
Lemma role_unset_is_violation :
  FileUnit.role unit_without_role = Py.None
  /\ Meta.check no_stock_messages (Meta.role_validator wrong error)
       unit_without_role Meta.fields_role
     = Ok (Some {| expl_field := Meta.fields_role;
                   expl_kind := wrong;
                   expl_severity := error;
                   expl_message := Py.Str Meta.role_message |}).
Proof. split; reflexivity. Qed.

(** C7 at the unit with the path suite.txt and the role unit-source. *)
Lemma path_violation_classification_witness :
  let e := {| expl_field := Meta.fields_path;
              expl_kind := deprecated;
              expl_severity := advice;
              expl_message := Py.Str Meta.path_message |} in
  Meta.check no_stock_messages (Meta.path_validator wrong error)
    unit_suite_txt Meta.fields_path = Ok (Some e)
  /\ expl_kind e = deprecated
  /\ expl_severity e = advice.
Proof.
  intros e.
  assert (H : Meta.check no_stock_messages (Meta.path_validator wrong error)
                unit_suite_txt Meta.fields_path = Ok (Some e)) by reflexivity.
  split; [exact H |].
  destruct (path_violation_classification no_stock_messages wrong error
              unit_suite_txt e H) as [_ [Hk [Hs _]]].
  split; [exact Hk | exact Hs].
Defined.

(** C6 at the unit whose role is bogus. *)
Lemma role_message_sorted_roles_witness :
  let e := {| expl_field := Meta.fields_role;
              expl_kind := wrong;
              expl_severity := error;
              expl_message := Py.Str Meta.role_message |} in
  Meta.check no_stock_messages (Meta.role_validator wrong error)
    {[ "role" := "bogus" ]} Meta.fields_role = Ok (Some e)
  /\ expl_severity e = error.
Proof.
  intros e.
  assert (H : Meta.check no_stock_messages (Meta.role_validator wrong error)
                {[ "role" := "bogus" ]} Meta.fields_role = Ok (Some e)) by reflexivity.
  split; [exact H |].
  apply (proj2 (proj2 (proj2 (proj2 (proj2 (proj2 (proj2
           (role_message_sorted_roles no_stock_messages wrong error))))))) _ e H).
Defined.

(** C8 (amended) at the unit with the path suite.txt. *)
Lemma file_unit_str_repr_witness :
  unit_suite_txt !! "path" = Some "suite.txt"
  /\ repr_verbatim "suite.txt" = true
  /\ occurs_in "suite.txt" (FileUnit.__repr__ unit_suite_txt).
Proof.
  split; [reflexivity | split; [reflexivity |]].
  apply (proj1 (proj2 (proj2 (file_unit_str_repr unit_suite_txt))) "suite.txt");
    reflexivity.
Defined.

(** C8 as worded fails: the representation of a unit whose path holds a
    backslash doubles it, and so does not hold the path verbatim. *)
Lemma repr_escapes_backslash :
  FileUnit.path unit_backslash = Py.Str backslash_path
  /\ FileUnit.__repr__ unit_backslash
     = "<FileUnit path:'a" ++ String Py.backslash (String Py.backslash "b', role:'docs'>")
  /\ ~ occurs_in backslash_path (FileUnit.__repr__ unit_backslash).
Proof.
  split; [reflexivity | split; [reflexivity |]].
  intros H. apply occurs_in_str_contains in H. vm_compute in H. discriminate H.
Qed.

(** C10 at the path suite, which has no dot. *)
Lemma extension_is_last_suffix_witness :
  Py.contains_char "." "suite" = false
  /\ Meta.path_correct_fn (Py.Str "suite") = Ok false.
Proof.
  split; [reflexivity |].
  apply (proj1 (proj2 (proj2 (proj2
           (extension_is_last_suffix no_stock_messages wrong error))))).
  reflexivity.
Defined.

(** * Further properties of the module *)

(** ** FileUnitValidator.explain *)

Lemma truthy_nonempty (v : Py.value) :
  Py.truthy v = true -> exists s, v = Py.Str s /\ s <> "".
Proof.
  destruct v as [|s]; simpl; [discriminate |].
  intros H. exists s. split; [reflexivity |].
  intros ->. discriminate H.
Qed.

(** X1: [explain] answers [None] or a non-empty string, never the empty
    string; it answers [None] exactly when neither the own message nor the
    stock message of the kind is true. *)
Theorem explain_none_or_nonempty
    (self : UnitValidator) (unit : gmap string string) (field : Symbol)
    (kind : Problem) (message : Py.value) :
  (FileUnitValidator.explain self unit field kind message = Py.None
   \/ exists s, FileUnitValidator.explain self unit field kind message = Py.Str s
                /\ s <> "")
  /\ (FileUnitValidator.explain self unit field kind message = Py.None <->
      Py.truthy message = false /\ Py.truthy (_explain_map self kind) = false).
Proof.
  unfold FileUnitValidator.explain, Py.or_.
  destruct (Py.truthy message) eqn:Hm.
  - rewrite Hm. destruct (truthy_nonempty message Hm) as [s [-> Hs]].
    split; [right; now exists s |].
    split; [discriminate | intros [H _]; discriminate H].
  - destruct (Py.truthy (_explain_map self kind)) eqn:Hk.
    + destruct (truthy_nonempty _ Hk) as [s [-> Hs]].
      split; [right; now exists s |].
      split; [discriminate | intros [_ H]; discriminate H].
    + split; [now left | tauto].
Qed.

(** ** The two validators together *)

Lemma path_violation_needs_unit_source
    (parent : UnitValidator) (default_kind : Problem) (default_severity : Severity)
    (u : gmap string string) :
  violation (Meta.check parent (Meta.path_validator default_kind default_severity)
               u Meta.fields_path) ->
  FileUnit.role u = Py.Str "unit-source".
Proof.
  intros [e He]. destruct (Meta.path_onlyif u) eqn:Hg.
  - now apply role_is_unit_source.
  - assert (Hne : FileUnit.role u <> Py.Str "unit-source").
    { intros Hr. apply role_is_unit_source in Hr. congruence. }
    rewrite (path_validator_inert parent default_kind default_severity u Hne) in He.
    discriminate He.
Qed.

(** X2: the two validators never both report a violation for one unit.  A
    unit the extension validator flags has the role unit-source, which the
    role validator accepts; a unit the role validator flags has a role that
    is no Role symbol, so the extension validator is inert. *)
Theorem validators_never_both_fire
    (parent : UnitValidator) (default_kind : Problem) (default_severity : Severity)
    (u : gmap string string) :
  (violation (Meta.check parent (Meta.path_validator default_kind default_severity)
                u Meta.fields_path) ->
   Meta.check parent (Meta.role_validator default_kind default_severity)
     u Meta.fields_role = Ok Datatypes.None)
  /\ (violation (Meta.check parent (Meta.role_validator default_kind default_severity)
                   u Meta.fields_role) ->
      Meta.check parent (Meta.path_validator default_kind default_severity)
        u Meta.fields_path = Ok Datatypes.None).
Proof.
  split.
  - intros Hv. apply path_violation_needs_unit_source in Hv.
    rewrite role_validator_result, Hv. reflexivity.
  - intros [e He]. apply path_validator_inert. intros Hr.
    rewrite role_validator_result, Hr in He. discriminate He.
Qed.

Lemma validators_never_both_fire_witness :
  violation (Meta.check no_stock_messages (Meta.path_validator wrong error)
               unit_suite_txt Meta.fields_path)
  /\ Meta.check no_stock_messages (Meta.role_validator wrong error)
       unit_suite_txt Meta.fields_role = Ok Datatypes.None
  /\ violation (Meta.check no_stock_messages (Meta.role_validator wrong error)
                  unit_without_role Meta.fields_role)
  /\ Meta.check no_stock_messages (Meta.path_validator wrong error)
       unit_without_role Meta.fields_path = Ok Datatypes.None.
Proof.
  assert (H1 : violation (Meta.check no_stock_messages (Meta.path_validator wrong error)
                            unit_suite_txt Meta.fields_path))
    by (eexists; reflexivity).
  assert (H2 : violation (Meta.check no_stock_messages (Meta.role_validator wrong error)
                            unit_without_role Meta.fields_role))
    by (eexists; reflexivity).
  split; [exact H1 | split; [| split; [exact H2 |]]].
  - apply (proj1 (validators_never_both_fire no_stock_messages wrong error unit_suite_txt)).
    exact H1.
  - apply (proj2 (validators_never_both_fire no_stock_messages wrong error unit_without_role)).
    exact H2.
Defined.

(** A validator with a non-empty message of its own is explained by that
    message, whatever the stock messages are. *)
Lemma evaluate_own_message
    (parent : UnitValidator) (v : CorrectFieldValueValidator.t)
    (u : gmap string string) (field : Symbol) :
  Py.truthy (CorrectFieldValueValidator.message v) = true ->
  Meta.check parent v u field =
    CorrectFieldValueValidator.evaluate (fun _ _ _ message => message) v u field.
Proof.
  intros Hm. unfold Meta.check, CorrectFieldValueValidator.evaluate.
  destruct (negb _); [reflexivity |].
  destruct (CorrectFieldValueValidator.correct_fn v _) as [[|]|]; try reflexivity.
  unfold FileUnitValidator.explain, Py.or_. rewrite Hm, Hm. reflexivity.
Qed.

(** X3: every validator in the table of the file unit has a non-empty
    message of its own, so what it reports does not depend on the stock
    messages of the unit validator, and a violation always carries that
    message: the case where [explain] has nothing to say does not arise. *)
Theorem table_validators_explain_themselves
    (parent parent' : UnitValidator) (default_kind : Problem) (default_severity : Severity)
    (field : string) (validators : list CorrectFieldValueValidator.t)
    (v : CorrectFieldValueValidator.t) (u : gmap string string) :
  Meta.field_validators default_kind default_severity !! field = Some validators ->
  In v validators ->
  Meta.check parent v u (mkSymbol field) = Meta.check parent' v u (mkSymbol field)
  /\ forall e : Explanation,
       Meta.check parent v u (mkSymbol field) = Ok (Some e) ->
       expl_message e = CorrectFieldValueValidator.message v
       /\ Py.truthy (expl_message e) = true.
Proof.
  intros Hlook Hin.
  assert (Hm : Py.truthy (CorrectFieldValueValidator.message v) = true).
  { unfold Meta.field_validators in Hlook.
    destruct (decide (field = "path")) as [-> | Hp].
    - rewrite lookup_insert_eq in Hlook. injection Hlook as <-.
      destruct Hin as [<- | []]. reflexivity.
    - rewrite lookup_insert_ne in Hlook by (simpl; congruence).
      destruct (decide (field = "role")) as [-> | Hr].
      + rewrite lookup_singleton_eq in Hlook. injection Hlook as <-.
        destruct Hin as [<- | []]. reflexivity.
      + rewrite lookup_singleton_ne in Hlook by (simpl; congruence).
        discriminate Hlook. }
  split.
  - now rewrite !evaluate_own_message.
  - intros e. rewrite (evaluate_own_message parent v u _ Hm).
    unfold CorrectFieldValueValidator.evaluate.
    destruct (negb _); [discriminate |].
    destruct (CorrectFieldValueValidator.correct_fn v _) as [[|]|]; try discriminate.
    intros H. injection H as <-. simpl. split; [reflexivity | exact Hm].
Qed.

Lemma table_validators_explain_themselves_witness :
  let v := Meta.path_validator wrong error in
  let stocked := {| _explain_map := fun _ => Py.Str "stock" |} in
  Meta.check no_stock_messages v unit_suite_txt (mkSymbol "path")
  = Meta.check stocked v unit_suite_txt (mkSymbol "path").
Proof.
  intros v stocked.
  apply (table_validators_explain_themselves no_stock_messages stocked wrong error
           "path" [v] v unit_suite_txt).
  - reflexivity.
  - left. reflexivity.
Defined.

(** ** The extension predicate on whole paths *)

Lemma last_component_of_name (name : string) :
  Py.contains_char "/" name = false -> last_component name = name.
Proof.
  intros Hno. unfold last_component, Py.rfind.
  change PosixPath.sep with "/"%char.
  now rewrite (rfind_from_absent name "/"%char 0 (-1) Hno).
Qed.

Lemma last_component_after_sep (dir name : string) :
  Py.contains_char "/" name = false ->
  last_component (dir ++ String "/" name) = name.
Proof.
  intros Hno. unfold last_component. change PosixPath.sep with "/"%char.
  rewrite (rfind_last dir name "/"%char Hno). unfold Py.slice_from.
  replace (Z.to_nat (Z.of_nat (String.length dir) + 1))
    with (String.length (dir ++ String "/" "")).
  - replace (dir ++ String "/" name) with ((dir ++ String "/" "") ++ name).
    + apply drop_append.
    + rewrite append_assoc. reflexivity.
  - rewrite length_append. simpl. lia.
Qed.

(** The extension of a path whose last component has no dot is empty, also
    when a directory in front of it has one. *)
Lemma splitext_name_without_dot (dir name : string) :
  Py.contains_char "." name = false ->
  Py.contains_char "/" name = false ->
  PosixPath.splitext (dir ++ String "/" name) = (dir ++ String "/" name, "").
Proof.
  intros Hdot Hsep. unfold PosixPath.splitext.
  change PosixPath.extsep with "."%char. change PosixPath.sep with "/"%char.
  rewrite (rfind_last dir name "/"%char Hsep).
  rewrite (rfind_tail_absent dir (String "/" name) "."%char) by exact Hdot.
  pose proof (rfind_bounds dir "."%char) as Hb.
  destruct (Py.rfind dir "." >? Z.of_nat (String.length dir)) eqn:Hgt;
    [apply Z.gtb_lt in Hgt; lia | reflexivity].
Qed.

(** X4: the extension predicate looks at the last component of the path
    only: a path made of any directory part, a separator and a file name
    is accepted exactly when the file name alone is. *)
Theorem extension_looks_at_file_name (dir name : string) :
  Py.contains_char "/" name = false ->
  Meta.path_correct_fn (Py.Str (dir ++ String "/" name))
  = Meta.path_correct_fn (Py.Str name).
Proof.
  intros Hsep. unfold Meta.path_correct_fn. do 2 f_equal.
  destruct (rfind_spec name "."%char) as [[Hno _] | [before [after [Hname [Hno _]]]]].
  - rewrite (splitext_name_without_dot dir name Hno Hsep).
    now rewrite (splitext_no_dot name Hno).
  - subst name. rewrite contains_char_append in Hsep.
    apply orb_false_iff in Hsep. destruct Hsep as [Hb Ha]. simpl in Ha.
    replace (dir ++ String "/" (before ++ String "." after))
      with ((dir ++ String "/" before) ++ String "." after)
      by (rewrite append_assoc; reflexivity).
    rewrite !splitext_at_last_dot by assumption.
    rewrite (last_component_after_sep dir before Hb).
    rewrite (last_component_of_name before Hb).
    destruct (all_chars is_dot before); reflexivity.
Qed.

Lemma extension_looks_at_file_name_witness :
  Meta.path_correct_fn (Py.Str ("/usr/share/2013.com.canonical" ++ String "/" "suite.pxu"))
  = Meta.path_correct_fn (Py.Str "suite.pxu").
Proof. apply extension_looks_at_file_name. reflexivity. Defined.

(** X5: a path that ends with a dot and a suffix other than [pxu] is never
    accepted, whatever comes before; the comparison is by exact characters.
    So the [.txt] and [.txt.in] names the module advises against are not
    accepted, and neither is [.PXU]. *)
Theorem other_suffixes_rejected (root name : string) :
  Py.contains_char "." name = false ->
  Py.contains_char "/" name = false ->
  name <> "pxu" ->
  Meta.path_correct_fn (Py.Str (root ++ String "." name)) = Ok false
  /\ Meta.path_correct_fn (Py.Str (root ++ ".txt")) = Ok false
  /\ Meta.path_correct_fn (Py.Str (root ++ ".txt.in")) = Ok false
  /\ Meta.path_correct_fn (Py.Str (root ++ ".PXU")) = Ok false.
Proof.
  assert (Hgen : forall r n : string,
             Py.contains_char "." n = false ->
             Py.contains_char "/" n = false ->
             n <> "pxu" ->
             Meta.path_correct_fn (Py.Str (r ++ String "." n)) = Ok false).
  { intros r n Hdot Hsep Hne. unfold Meta.path_correct_fn. f_equal.
    rewrite (splitext_at_last_dot r n Hdot Hsep).
    destruct (all_chars is_dot (last_component r)); simpl fst; simpl snd.
    - reflexivity.
    - apply String.eqb_neq. intros H. injection H as H. contradiction. }
  intros Hdot Hsep Hne.
  split; [now apply Hgen |].
  split; [apply (Hgen root "txt"); [reflexivity | reflexivity | discriminate] |].
  split.
  - replace (root ++ ".txt.in") with ((root ++ ".txt") ++ String "." "in")
      by (rewrite append_assoc; reflexivity).
    apply Hgen; [reflexivity | reflexivity | discriminate].
  - apply (Hgen root "PXU"); [reflexivity | reflexivity | discriminate].
Qed.

Lemma other_suffixes_rejected_witness :
  Meta.path_correct_fn (Py.Str ("jobs/suite" ++ String "." "yaml")) = Ok false.
Proof.
  apply (proj1 (other_suffixes_rejected "jobs/suite" "yaml"
                  eq_refl eq_refl ltac:(discriminate))).
Defined.

(** ** The message of the role validator and what the validator accepts *)

Lemma occurs_in_join (sep s : string) (items : list string) :
  In s items -> occurs_in s (Py.join sep items).
Proof.
  induction items as [|x rest IH]; [intros [] |].
  intros Hin. destruct rest as [|y rest].
  - destruct Hin as [-> | []]. exists "", "". simpl Py.join.
    now rewrite append_nil_r.
  - change (Py.join sep (x :: y :: rest)) with (x ++ sep ++ Py.join sep (y :: rest)).
    destruct Hin as [-> | Hin].
    + exists "", (sep ++ Py.join sep (y :: rest)). reflexivity.
    + destruct (IH Hin) as [before [after ->]].
      exists (x ++ sep ++ before), after. now rewrite !append_assoc.
Qed.

(** X6: the message of the role validator names exactly the values the
    validator accepts: a string passes the membership test if and only if it
    is one of the names joined into the message, and each of those names
    stands in the message verbatim. *)
Theorem role_message_names_accepted_values (s : string) :
  let names := List.map Sym.str (Py.sorted Sym.lt (get_all_symbols FileRole)) in
  (Meta.role_correct_fn (Py.Str s) = Ok true <-> In s names)
  /\ (In s names -> occurs_in s Meta.role_message).
Proof.
  intros names.
  assert (Hperm : Permutation names (identifiers FileRole)).
  { unfold names, identifiers.
    apply (Permutation_map Sym.str (l := Py.sorted Sym.lt (get_all_symbols FileRole))).
    apply sorted_perm. }
  split.
  - unfold Meta.role_correct_fn.
    pose proof (Sym_contains_str (get_all_symbols FileRole) s) as Hc.
    destruct (Sym.contains (get_all_symbols FileRole) (Py.Str s)).
    + split; [intros _ | reflexivity].
      apply (Permutation_in _ (Permutation_sym Hperm)), Hc. reflexivity.
    + split; [discriminate |].
      intros H. apply (Permutation_in _ Hperm), Hc in H. discriminate H.
  - intros Hin. destruct (occurs_in_join ", " s names Hin) as [before [after Hj]].
    exists ("valid values are: " ++ before), after.
    assert (Hmsg : Meta.role_message = "valid values are: " ++ Py.join ", " names)
      by reflexivity.
    rewrite Hmsg, Hj, append_assoc. reflexivity.
Qed.

Lemma role_message_names_accepted_values_witness :
  Meta.role_correct_fn (Py.Str "docs") = Ok true
  /\ occurs_in "docs" Meta.role_message.
Proof.
  assert (Hin : In "docs" (List.map Sym.str (Py.sorted Sym.lt (get_all_symbols FileRole)))).
  { apply (proj1 (role_message_names_accepted_values "docs")). reflexivity. }
  split; [reflexivity |].
  apply (proj2 (role_message_names_accepted_values "docs")). exact Hin.
Defined.

(** ** The representation of a unit without a role *)

Lemma append_same_length_suffix (a b s t : string) :
  a ++ s = b ++ t -> String.length s = String.length t -> s = t.
Proof.
  revert b. induction a as [|x a IH]; intros [|y b] Heq Hlen.
  - exact Heq.
  - change ("" ++ s) with s in Heq. subst s.
    rewrite append_cons in Hlen. simpl in Hlen. rewrite length_append in Hlen. lia.
  - change ("" ++ t) with t in Heq. subst t.
    rewrite append_cons in Hlen. simpl in Hlen. rewrite length_append in Hlen. lia.
  - rewrite !append_cons in Heq. injection Heq as _ Heq. now apply (IH b).
Qed.

(** X7: the representation of a file unit ends with [, role:None>] exactly
    when the role of the unit is not set.  A role that is set is shown
    between quotes, so not even the role string None is shown like a
    missing role. *)
Theorem repr_shows_unset_role (u : gmap string string) :
  (exists before, FileUnit.__repr__ u = before ++ ", role:None>")
  <-> u !! "role" = Datatypes.None.
Proof.
  rewrite repr_format.
  assert (Hrole : FileUnit.role u
                  = match u !! "role" with
                    | Some raw => Py.Str raw
                    | Datatypes.None => Py.None
                    end) by reflexivity.
  rewrite Hrole. clear Hrole.
  destruct (u !! "role") as [r|]; split.
  - intros [before Heq]. exfalso. simpl Py.repr in Heq. unfold Py.repr_str in Heq.
    set (quote := if Py.contains_char Py.single_quote r
                       && negb (Py.contains_char Py.double_quote r)
                  then Py.double_quote else Py.single_quote) in Heq.
    assert (Hl : "<FileUnit path:" ++ Py.repr (FileUnit.path u) ++ ", role:"
                   ++ String quote (Py.repr_body quote r ++ String quote "") ++ ">"
                 = ("<FileUnit path:" ++ Py.repr (FileUnit.path u) ++ ", role:"
                      ++ String quote (Py.repr_body quote r))
                   ++ String quote ">").
    { rewrite (append_assoc "<FileUnit path:"). f_equal.
      rewrite (append_assoc (Py.repr (FileUnit.path u))). f_equal.
      rewrite (append_assoc ", role:"). f_equal.
      rewrite !append_cons. f_equal. rewrite append_assoc. reflexivity. }
    assert (Hr : before ++ ", role:None>" = (before ++ ", role:Non") ++ "e>")
      by (rewrite append_assoc; reflexivity).
    rewrite Hl, Hr in Heq.
    apply append_same_length_suffix in Heq; [| reflexivity].
    injection Heq as Hq. unfold quote in Hq.
    destruct (Py.contains_char Py.single_quote r && negb (Py.contains_char Py.double_quote r));
      discriminate Hq.
  - discriminate.
  - reflexivity.
  - intros _. exists ("<FileUnit path:" ++ Py.repr (FileUnit.path u)).
    rewrite append_assoc. reflexivity.
Qed.
